(** * fng-socket: the socket message dispatcher

    A shallow embedding of
      - [src/util.ts/string.util.ts]          ([camelCase], [createMethodName]),
      - [src/util.ts/authentication.util.ts]  ([validateToken]),
      - [src/message-handler/index.ts]        ([createMesssageHandler]),
      - [src/types/index.ts]                  (the enumerations and records),
    followed by the properties of the dispatcher. *)

From Stdlib Require Import ZArith Ascii String.
From stdpp Require Import base option list strings gmap.

Local Open Scope string_scope.

(** ** JavaScript strings

    Strings are [String.string]; the characters the program transforms are the
    ASCII letters of the enumeration names and of the literal ["handle"]. *)
Module JsString.

Definition is_upper (c : ascii) : bool :=
  let n := nat_of_ascii c in (65 <=? n)%nat && (n <=? 90)%nat.

Definition is_lower (c : ascii) : bool :=
  let n := nat_of_ascii c in (97 <=? n)%nat && (n <=? 122)%nat.

Definition lower_char (c : ascii) : ascii :=
  if is_upper c then ascii_of_nat (nat_of_ascii c + 32) else c.

Definition upper_char (c : ascii) : ascii :=
  if is_lower c then ascii_of_nat (nat_of_ascii c - 32) else c.

(** [String.prototype.toLowerCase] and [toUpperCase]. *)
Fixpoint toLowerCase (s : string) : string :=
  match s with
  | EmptyString => EmptyString
  | String c s' => String (lower_char c) (toLowerCase s')
  end.

Fixpoint toUpperCase (s : string) : string :=
  match s with
  | EmptyString => EmptyString
  | String c s' => String (upper_char c) (toUpperCase s')
  end.

(** [word[0]]: the first character as a one-character string, [undefined]
    (here [None]) on the empty string. *)
Definition char0 (s : string) : option string :=
  match s with
  | EmptyString => None
  | String c _ => Some (String c EmptyString)
  end.

(** [s.slice(1)]. *)
Definition slice1 (s : string) : string :=
  match s with
  | EmptyString => EmptyString
  | String _ s' => s'
  end.

(** [arr.join("")]. *)
Definition join (ws : list string) : string :=
  foldr String.append EmptyString ws.

(** [s.split(sep)] for a one-character separator: the pieces between the
    occurrences of [sep]; a string without [sep] is its own single piece. *)
Fixpoint split (sep : ascii) (s : string) : list string :=
  match s with
  | EmptyString => [EmptyString]
  | String c s' =>
      if Ascii.eqb c sep then EmptyString :: split sep s'
      else match split sep s' with
           | [] => [String c EmptyString]
           | w :: ws => String c w :: ws
           end
  end.

(** Truthiness of a string: every string but the empty one. *)
Definition truthy (s : string) : bool :=
  match s with EmptyString => false | _ => true end.

(** [c] does not occur in [s]. *)
Fixpoint free_of (c : ascii) (s : string) : bool :=
  match s with
  | EmptyString => true
  | String d s' => negb (Ascii.eqb d c) && free_of c s'
  end.

End JsString.

(** ** The enumerations of [src/types/index.ts] *)

Inductive TransportSubAction : Set :=
| SUB_ACTION | SUB_CODE | SUB_CREATE | SUB_DELETE | SUB_DESTROY | SUB_END
| SUB_ERROR | SUB_GET | SUB_INVITE | SUB_JOIN | SUB_LEAVE | SUB_LOGIN
| SUB_LOGOUT | SUB_MESSAGE | SUB_SEND | SUB_SIGNUP | SUB_START | SUB_STORE
| SUB_TURN.

Inductive TransportAction : Set :=
| AUTH | ERROR | GROUP | GROUPS | MESSAGE | NOTIFICATION | ROOM | UNKNOWN
| USER | ZONE.

(** The string each member stands for at run time. *)
Definition TransportSubAction_value (s : TransportSubAction) : string :=
  match s with
  | SUB_ACTION => "ACTION" | SUB_CODE => "CODE" | SUB_CREATE => "CREATE"
  | SUB_DELETE => "DELETE" | SUB_DESTROY => "DESTROY" | SUB_END => "END"
  | SUB_ERROR => "ERROR" | SUB_GET => "GET" | SUB_INVITE => "INVITE"
  | SUB_JOIN => "JOIN" | SUB_LEAVE => "LEAVE" | SUB_LOGIN => "LOGIN"
  | SUB_LOGOUT => "LOGOUT" | SUB_MESSAGE => "MESSAGE" | SUB_SEND => "SEND"
  | SUB_SIGNUP => "SIGNUP" | SUB_START => "START" | SUB_STORE => "STORE"
  | SUB_TURN => "TURN"
  end.

Definition TransportAction_value (a : TransportAction) : string :=
  match a with
  | AUTH => "AUTH" | ERROR => "ERROR" | GROUP => "GROUP" | GROUPS => "GROUPS"
  | MESSAGE => "MESSAGE" | NOTIFICATION => "NOTIFICATION" | ROOM => "ROOM"
  | UNKNOWN => "UNKNOWN" | USER => "USER" | ZONE => "ZONE"
  end.

#[global] Instance TransportAction_eq_dec : EqDecision TransportAction.
Proof. solve_decision. Defined.

#[global] Instance TransportSubAction_eq_dec : EqDecision TransportSubAction.
Proof. solve_decision. Defined.

Definition all_actions : list TransportAction :=
  [AUTH; ERROR; GROUP; GROUPS; MESSAGE; NOTIFICATION; ROOM; UNKNOWN; USER; ZONE].

Definition all_subActions : list TransportSubAction :=
  [SUB_ACTION; SUB_CODE; SUB_CREATE; SUB_DELETE; SUB_DESTROY; SUB_END;
   SUB_ERROR; SUB_GET; SUB_INVITE; SUB_JOIN; SUB_LEAVE; SUB_LOGIN;
   SUB_LOGOUT; SUB_MESSAGE; SUB_SEND; SUB_SIGNUP; SUB_START; SUB_STORE;
   SUB_TURN].

(** ** [src/util.ts/string.util.ts] *)
Module StringUtil.
Import JsString.

(** The callback of [camelCase]'s [map]: [word[0]] is [undefined] on an empty
    word and the method call on it throws a [TypeError] ([None]). *)
Definition camelWord (idx : nat) (word : string) : option string :=
  c ← char0 word;
  Some ((if (idx =? 0)%nat then toLowerCase c else toUpperCase c)
          +:+ slice1 (toLowerCase word)).

(** [input.map((word, idx) => ...)], left to right; the first throwing
    callback aborts the whole call. *)
Fixpoint mapWords (idx : nat) (input : list string) : option (list string) :=
  match input with
  | [] => Some []
  | word :: rest =>
      w ← camelWord idx word;
      ws ← mapWords (S idx) rest;
      Some (w :: ws)
  end.

Definition camelCase (input : list string) : option string :=
  join <$> mapWords 0 input.

(** [createMethodName] on the run-time strings: [if (subAction)] pushes the
    sub-action when it is present and not the empty string. *)
Definition createMethodName_str (action : string) (subAction : option string)
  : option string :=
  let arr := ["handle"; action] in
  let arr := match subAction with
             | Some s => if truthy s then (arr ++ [s])%list else arr
             | None => arr
             end in
  camelCase arr.

(** [createMethodName] at its declared type. *)
Definition createMethodName (action : TransportAction)
    (subAction : option TransportSubAction) : option string :=
  createMethodName_str (TransportAction_value action)
                       (TransportSubAction_value <$> subAction).

End StringUtil.

Import StringUtil.

(** ** Run-time values and the records of [src/types/index.ts]

    An envelope reaches the dispatcher as parsed JSON and a registry is often
    written with [as MessageHandlerConfig], so the declared [auth?: string] and
    [noAuth: boolean] are not enforced at run time: both fields hold an
    arbitrary value, and the code tests them with [!auth], [typeof] and
    [=== false]. *)

Inductive JsError : Type :=
| Error (message : string)
| TypeError.

Section Types.
Context {WebSocketInterface JsonObj JwtPayload : Type}.

(** Numbers are the integer ones; [NaN] is not a JSON value. *)
Inductive JsValue : Type :=
| JsUndefined
| JsNull
| JsBoolean (b : bool)
| JsNumber (n : Z)
| JsString (s : string)
| JsObject (o : JsonObj).

(** [!!v]. *)
Definition truthy (v : JsValue) : bool :=
  match v with
  | JsUndefined | JsNull => false
  | JsBoolean b => b
  | JsNumber n => negb (n =? 0)%Z
  | JsString s => JsString.truthy s
  | JsObject _ => true
  end.

(** [v === false]. *)
Definition is_false (v : JsValue) : bool :=
  match v with
  | JsBoolean false => true
  | _ => false
  end.

Inductive GeneralError : Type :=
| GeError (e : JsError)
| GeString (s : string)
| GeJsonObj (o : JsonObj).

Record Transport : Type := mkTransport {
  auth : JsValue;
  action : TransportAction;
  subAction : option TransportSubAction;
  message : option string;
  payload : option JsonObj;
  error : option GeneralError;
}.

(** [ValidTokenInterface extends JwtPayload] with an optional [user]. *)
Record ValidTokenInterface : Type := mkValidToken {
  user : option JsonObj;
  claims : JwtPayload;
}.

(** The outcome of a call: a value, or a thrown error (a rejected promise). *)
Inductive Outcome (A : Type) : Type :=
| Return (a : A)
| Throw (e : JsError).
Global Arguments Return {A} a.
Global Arguments Throw {A} e.

(** [ActionMethod]: the promise it returns resolves or rejects. *)
Definition ActionMethod : Type :=
  WebSocketInterface → option JsonObj → option JsonObj → Outcome Transport.

(** One entry of [MessageHandlerConfig]. *)
Record ConfigEntry : Type := mkEntry {
  noAuth : JsValue;
  actionMethod : ActionMethod;
}.

(** [process.env]. *)
Record ProcessEnv : Type := mkEnv {
  JWT_SECRET : option string;
}.

(** [!secret]: the variable is unset or empty. *)
Definition no_secret (env : ProcessEnv) : bool :=
  match JWT_SECRET env with
  | Some s => negb (JsString.truthy s)
  | None => true
  end.

(** *** Calls as observable events

    Every call the dispatcher makes to the token validator, to the JWT
    library and to a registered handler is recorded, in order. *)
Inductive Event : Type :=
| CallValidateToken (bearer : JsValue)
| CallJwtVerify (token secret : string)
| CallActionMethod (methodName : string) (ws : WebSocketInterface)
                   (payload user : option JsonObj).

(** A computation: the calls it made and how it ended. *)
Definition M (A : Type) : Type := (list Event * Outcome A)%type.

Definition ret {A} (a : A) : M A := ([], Return a).
Definition throw {A} (e : JsError) : M A := ([], Throw e).
Definition log (ev : Event) : M unit := ([ev], Return tt).

Definition bind {A B} (m : M A) (k : A → M B) : M B :=
  match m with
  | (t, Return a) => let '(t', r) := k a in ((t ++ t')%list, r)
  | (t, Throw e) => (t, Throw e)
  end.

(** An outcome obtained without a recorded call. *)
Definition lift {A} (o : Outcome A) : M A := ([], o).

Definition calls {A} (m : M A) : list Event := fst m.
Definition outcome {A} (m : M A) : Outcome A := snd m.

End Types.

Arguments JsValue : clear implicits.
Arguments GeneralError : clear implicits.
Arguments Transport : clear implicits.
Arguments ValidTokenInterface : clear implicits.
Arguments ActionMethod : clear implicits.
Arguments ConfigEntry : clear implicits.
Arguments Event : clear implicits.
Arguments M : clear implicits.

Declare Scope js_scope.
Delimit Scope js_scope with js.
Notation "'let*' x ':=' m 'in' k" := (bind m (fun x => k))
  (at level 10, x name, m at level 100, k at level 200) : js_scope.
Notation "m ';;;' k" := (bind m (fun _ => k))
  (at level 100, k at level 200, right associativity) : js_scope.

(** ** The token validator and the dispatcher *)
Section Dispatcher.
Context {WebSocketInterface JsonObj JwtPayload : Type}.

Local Abbreviation Value := (JsValue JsonObj).
Local Abbreviation Token := (ValidTokenInterface JsonObj JwtPayload).
Local Abbreviation Envelope := (Transport JsonObj).
Local Abbreviation Entry := (ConfigEntry WebSocketInterface JsonObj).
Local Abbreviation Comp := (M WebSocketInterface JsonObj).

(** [jwt.verify(token, secret)] of the [jsonwebtoken] library: the decoded
    claims, or [None] when it throws. *)
Variable jwt_verify : string → string → option Token.

(** The process environment at the time of the call. *)
Variable env : ProcessEnv.

Local Open Scope js_scope.

(** [bearer.split(" ")[1] || bearer]. *)
Definition bearer_token (bearer : string) : string :=
  match JsString.split " " bearer !! 1%nat with
  | Some t => if JsString.truthy t then t else bearer
  | None => bearer
  end.

(** [src/util.ts/authentication.util.ts], [validateToken]. *)
Definition validateToken (bearer : Value) : Comp Token :=
  log (CallValidateToken bearer) ;;;
  match bearer with
  | JsString bearer =>
      let token := bearer_token bearer in
      match JWT_SECRET env with
      | Some secret =>
          if negb (JsString.truthy secret)
          then throw (Error "No JWT secret found. Please set JWT_SECRET in .env file.")
          else
            log (CallJwtVerify token secret) ;;;
            match jwt_verify token secret with
            | Some res => ret res
            | None => throw (Error "Invalid Token. Please log in again.")
            end
      | None =>
          throw (Error "No JWT secret found. Please set JWT_SECRET in .env file.")
      end
  | _ => throw (Error "Invalid auth token")
  end.

(** The call [actionMethod(ws, payload, user)] of the entry found under
    [methodName]. *)
Definition call (methodName : string) (f : ActionMethod WebSocketInterface JsonObj)
    (ws : WebSocketInterface) (payload user : option JsonObj) : Comp Envelope :=
  log (CallActionMethod methodName ws payload user) ;;;
  lift (f ws payload user).

(** [createMethodName] inside the dispatcher: a [TypeError] of [camelCase]
    propagates. *)
Definition methodNameOf (message : Envelope) : Comp string :=
  match createMethodName (action message) (subAction message) with
  | Some methodName => ret methodName
  | None => throw TypeError
  end.

(** [src/message-handler/index.ts], [handleMessage].

    [config[methodName]] is a lookup in the registry object: every computed
    key starts with ["handle"], which no inherited property of a plain
    object does, and an entry, being an object, is truthy, so [!actionObj]
    holds exactly when the key has no entry. *)
Definition handleMessage (config : gmap string Entry)
    (ws : WebSocketInterface) (message : Envelope) : Comp Envelope :=
  let* methodName := methodNameOf message in
  match config !! methodName with
  | None => throw (Error ("Invalid Action " +:+ methodName))
  | Some actionObj =>
      let* user :=
        (if bool_decide (action message ≠ AUTH) && is_false (noAuth actionObj)
         then
           if negb (truthy (auth message))
           then throw (Error "Not Logged in")
           else
             let* res := validateToken (auth message) in
             ret (user res)
         else ret None)
      in
      call methodName (actionMethod actionObj) ws (payload message) user
  end.

(** [createMesssageHandler(config)] returns [handleMessage] closed over
    [config]. *)
Definition createMesssageHandler (config : gmap string Entry)
  : WebSocketInterface → Envelope → Comp Envelope :=
  handleMessage config.

End Dispatcher.

(** ** The key pattern, in the words of the specification *)
Module KeyPattern.
Import JsString.

(** A word with its first letter upper-cased and the remaining letters
    lower-cased. *)
Definition capitalize (w : string) : string :=
  match w with
  | EmptyString => EmptyString
  | String c rest => String (upper_char c) (toLowerCase rest)
  end.

(** ["handle"], the capitalized action and, when there is one, the
    capitalized sub-action. *)
Definition pattern_str (action : string) (subAction : option string) : string :=
  "handle" +:+ capitalize action +:+ from_option capitalize "" subAction.

Definition pattern (action : TransportAction)
    (subAction : option TransportSubAction) : string :=
  pattern_str (TransportAction_value action)
              (TransportSubAction_value <$> subAction).

(** Every action/sub-action combination with its key. *)
Definition key_table : list (string * (TransportAction * option TransportSubAction)) :=
  a ← all_actions;
  s ← None :: (Some <$> all_subActions);
  match createMethodName a s with
  | Some k => [(k, (a, s))]
  | None => []
  end.

(** The combination a key was built from, if any. *)
Definition parseMethodName (k : string)
  : option (TransportAction * option TransportSubAction) :=
  snd <$> find (λ p, String.eqb (fst p) k) key_table.

End KeyPattern.

(** ** Space-separated segments *)
Module Segments.
Import JsString.

(** The segments joined again, one [sep] between neighbours. *)
Fixpoint joinWith (sep : ascii) (segs : list string) : string :=
  match segs with
  | [] => ""
  | [w] => w
  | w :: rest => w +:+ String sep (joinWith sep rest)
  end.

(** A segment: a string without a space. *)
Definition spaceless (w : string) : Prop := free_of " " w = true.

End Segments.

(** What a run of [validateToken] on the string [bearer] looks like when it
    hands [token] to [jwt.verify] under [secret]. *)
Definition verified_as {WebSocketInterface JsonObj JwtPayload : Type}
    (jwt_verify : string → string → option (ValidTokenInterface JsonObj JwtPayload))
    (bearer token secret : string)
  : M WebSocketInterface JsonObj (ValidTokenInterface JsonObj JwtPayload) :=
  ([CallValidateToken (JsString bearer); CallJwtVerify token secret],
   match jwt_verify token secret with
   | Some res => Return res
   | None => Throw (Error "Invalid Token. Please log in again.")
   end).

(** ** A concrete registry, for running the dispatcher *)
Module Scenario.

(** Connections are numbered; JSON objects are lists of fields; the claims
    besides [user] are numeric ([exp], [iat]). *)
Definition Conn : Type := nat.
Definition Json : Type := list (string * string).
Definition Claims : Type := list (string * Z).

Definition alice : Json := [("id", "1"); ("username", "alice")].

(** A verifier that accepts the one token ["tok"] under the secret
    ["s3cret"]. *)
Definition verify (token secret : string)
  : option (ValidTokenInterface Json Claims) :=
  if String.eqb token "tok" && String.eqb secret "s3cret"
  then Some (mkValidToken (Some alice) [("exp", 1798761600%Z)])
  else None.

Definition env_secret : ProcessEnv := mkEnv (Some "s3cret").
Definition env_empty : ProcessEnv := mkEnv None.

(** A handler that answers with the user it was given as payload. *)
Definition whoami : ActionMethod Conn Json :=
  λ _ _ user, Return (mkTransport JsUndefined USER None (Some "whoami") user None).

(** A registry with [handleMessage] and [handleAuthLogin], both under the
    flag [flag]. *)
Definition config (flag : JsValue Json) : gmap string (ConfigEntry Conn Json) :=
  {[ "handleMessage" := mkEntry flag whoami;
     "handleAuthLogin" := mkEntry flag whoami ]}.

Definition envelope (a : TransportAction) (s : option TransportSubAction)
    (auth : JsValue Json) : Transport Json :=
  mkTransport auth a s None None None.

End Scenario.

(** ** Vocabulary for reading a run of the dispatcher *)
Module Observations.

(** The call is a handler invocation. *)
Definition is_handler_call {WebSocketInterface JsonObj : Type}
    (ev : Event WebSocketInterface JsonObj) : bool :=
  match ev with
  | CallActionMethod _ _ _ _ => true
  | _ => false
  end.

(** The three errors [validateToken] constructs. *)
Definition validateToken_errors : list JsError :=
  [Error "Invalid auth token";
   Error "No JWT secret found. Please set JWT_SECRET in .env file.";
   Error "Invalid Token. Please log in again."].

(** Two words that differ in letter case only. *)
Definition same_letters (w w' : string) : Prop :=
  JsString.toLowerCase w = JsString.toLowerCase w'.

End Observations.

(** * Properties *)

(** ** Strings *)
Module JsStringFacts.
Import JsString.

Lemma append_cons c (s t : string) : String c s +:+ t = String c (s +:+ t).
Proof. reflexivity. Qed.

Lemma append_empty_l (s : string) : "" +:+ s = s.
Proof. reflexivity. Qed.

Lemma append_empty_r (s : string) : s +:+ "" = s.
Proof. induction s as [|c s IH]; [done|]. by rewrite append_cons, IH. Qed.

Lemma append_assoc (s t u : string) : (s +:+ t) +:+ u = s +:+ (t +:+ u).
Proof. induction s as [|c s IH]; [done|]. by rewrite !append_cons, IH. Qed.

End JsStringFacts.

Create Rewrite HintDb jsstring.
#[local] Hint Rewrite JsStringFacts.append_cons JsStringFacts.append_empty_l
  JsStringFacts.append_empty_r : jsstring.

(** ** The action-key builder *)
Section ActionKey.
Import KeyPattern JsString.

Lemma createMethodName_str_pattern (action : string) (subAction : option string) :
  action ≠ "" →
  createMethodName_str action subAction = Some (pattern_str action subAction).
Proof.
  intros Hne. destruct action as [|c rest]; [done|].
  unfold pattern_str.
  destruct subAction as [[|d sub]|]; cbn -[upper_char];
    autorewrite with jsstring; reflexivity.
Qed.

Lemma TransportAction_value_nonempty a : TransportAction_value a ≠ "".
Proof. by destruct a. Qed.

Lemma createMethodName_defined a s : createMethodName a s = Some (pattern a s).
Proof. apply createMethodName_str_pattern, TransportAction_value_nonempty. Qed.

(** C3. For every action of [TransportAction] and every optional sub-action
    of [TransportSubAction], [createMethodName] returns ["handle"] followed
    by the action with its first letter upper-cased and the rest
    lower-cased, followed, when a sub-action is present, by the sub-action
    capitalized the same way; (MESSAGE, SEND) gives ["handleMessageSend"],
    (AUTH, none) gives ["handleAuth"], (ZONE, JOIN) gives
    ["handleZoneJoin"] and (MESSAGE, none) gives ["handleMessage"]. *)
Theorem createMethodName_pattern :
  (∀ (action : TransportAction) (subAction : option TransportSubAction),
      createMethodName action subAction
      = Some ("handle" +:+ capitalize (TransportAction_value action)
                +:+ match subAction with
                    | Some sub => capitalize (TransportSubAction_value sub)
                    | None => ""
                    end))
  ∧ createMethodName MESSAGE (Some SUB_SEND) = Some "handleMessageSend"
  ∧ createMethodName AUTH None = Some "handleAuth"
  ∧ createMethodName ZONE (Some SUB_JOIN) = Some "handleZoneJoin"
  ∧ createMethodName MESSAGE None = Some "handleMessage".
Proof.
  split; [|by repeat split].
  intros action subAction. rewrite createMethodName_defined.
  by destruct subAction.
Qed.

Lemma parse_createMethodName a s :
  parseMethodName <$> createMethodName a s = Some (Some (a, s)).
Proof. destruct a; destruct s as [[]|]; vm_compute; reflexivity. Qed.

(** C4. [createMethodName] is a function of its arguments and is injective
    on the declared enumerations: two action/sub-action combinations with
    the same key are the same combination. *)
Theorem createMethodName_injective
    (a1 a2 : TransportAction) (s1 s2 : option TransportSubAction) :
  createMethodName a1 s1 = createMethodName a2 s2 →
  a1 = a2 ∧ s1 = s2.
Proof.
  intros Heq.
  pose proof (parse_createMethodName a1 s1) as H1.
  pose proof (parse_createMethodName a2 s2) as H2.
  rewrite Heq in H1. rewrite H1 in H2. by simplify_eq.
Qed.

End ActionKey.

Lemma createMethodName_injective_witness :
  createMethodName ZONE (Some SUB_JOIN) = createMethodName ZONE (Some SUB_JOIN)
  ∧ (ZONE = ZONE ∧ Some SUB_JOIN = Some SUB_JOIN).
Proof.
  split; [reflexivity|].
  apply (createMethodName_injective ZONE ZONE (Some SUB_JOIN) (Some SUB_JOIN)).
  reflexivity.
Defined.

(** ** The effect monad *)
Section MonadFacts.
Context {WebSocketInterface JsonObj : Type}.
Local Abbreviation Comp := (M WebSocketInterface JsonObj).

Lemma bind_ret_l {A B} (a : A) (k : A → Comp B) : bind (ret a) k = k a.
Proof. unfold bind, ret. by destruct (k a). Qed.

Lemma bind_throw_l {A B} (e : JsError) (k : A → Comp B) :
  bind (throw e) k = throw e.
Proof. reflexivity. Qed.

Lemma bind_assoc {A B C} (m : Comp A) (k : A → Comp B) (h : B → Comp C) :
  bind (bind m k) h = bind m (λ a, bind (k a) h).
Proof.
  destruct m as [t [a|e]]; [|done]. simpl.
  destruct (k a) as [t' [b|e']]; simpl; [|done].
  destruct (h b) as [t'' r]. by rewrite (assoc_L (++)).
Qed.

Lemma bind_returned {A B} t (a : A) (k : A → Comp B) :
  bind (t, Return a) k = ((t ++ calls (k a))%list, outcome (k a)).
Proof. simpl. by destruct (k a). Qed.

End MonadFacts.

Lemma is_false_spec {JsonObj} (v : JsValue JsonObj) :
  is_false v = true ↔ v = JsBoolean false.
Proof. destruct v as [| |[]| | |]; simpl; split; congruence. Qed.

Lemma is_false_other {JsonObj} (v : JsValue JsonObj) :
  v ≠ JsBoolean false → is_false v = false.
Proof.
  intros Hv. destruct (is_false v) eqn:E; [|done].
  by apply is_false_spec in E.
Qed.


(** ** [split] and the segments of a string *)
Module SegmentsFacts.
Import JsString JsStringFacts Segments.

Lemma split_nonempty sep s : split sep s ≠ [].
Proof.
  destruct s as [|c s]; simpl; [done|].
  destruct (Ascii.eqb c sep); [done|]. by destruct (split sep s).
Qed.

Lemma split_free sep s : free_of sep s = true → split sep s = [s].
Proof.
  induction s as [|c s IH]; simpl; [done|].
  destruct (Ascii.eqb c sep); simpl; [done|].
  intros Hfree. by rewrite IH.
Qed.

Lemma split_app_sep sep a r :
  free_of sep a = true →
  split sep (a +:+ String sep r) = a :: split sep r.
Proof.
  induction a as [|c a IH]; simpl.
  - intros _. by rewrite Ascii.eqb_refl.
  - destruct (Ascii.eqb c sep); simpl; [done|].
    intros Hfree. by rewrite IH.
Qed.

Lemma split_joinWith sep segs :
  Forall (λ w, free_of sep w = true) segs → segs ≠ [] →
  split sep (joinWith sep segs) = segs.
Proof.
  induction 1 as [|w rest Hw Hrest IH]; [done|]. intros _.
  destruct rest as [|w' rest]; simpl.
  - by apply split_free.
  - rewrite split_app_sep by done. f_equal. by apply IH.
Qed.

Lemma joinWith_cons sep c w ws :
  joinWith sep (String c w :: ws) = String c (joinWith sep (w :: ws)).
Proof. by destruct ws. Qed.

Lemma joinWith_split sep s : joinWith sep (split sep s) = s.
Proof.
  induction s as [|c s IH]; simpl; [done|].
  destruct (Ascii.eqb_spec c sep) as [->|Hne].
  - pose proof (split_nonempty sep s) as Hne.
    destruct (split sep s) as [|w ws] eqn:E; [done|].
    change (joinWith sep ("" :: w :: ws))
      with ("" +:+ String sep (joinWith sep (w :: ws))).
    by rewrite append_empty_l, IH.
  - pose proof (split_nonempty sep s) as Hne'.
    destruct (split sep s) as [|w ws] eqn:E; [done|].
    by rewrite joinWith_cons, IH.
Qed.

Lemma split_segments_free sep s :
  Forall (λ w, free_of sep w = true) (split sep s).
Proof.
  induction s as [|c s IH]; simpl; [by repeat constructor|].
  destruct (Ascii.eqb c sep) eqn:E; [by constructor|].
  destruct (split sep s) as [|w ws]; [by repeat constructor; simpl; rewrite E|].
  inversion IH; subst. constructor; [|done]. simpl. by rewrite E.
Qed.

End SegmentsFacts.

(** ** The dispatcher *)
Section DispatcherFacts.
Context {WebSocketInterface JsonObj JwtPayload : Type}.

Local Abbreviation Value := (JsValue JsonObj).
Local Abbreviation Token := (ValidTokenInterface JsonObj JwtPayload).
Local Abbreviation Envelope := (Transport JsonObj).
Local Abbreviation Entry := (ConfigEntry WebSocketInterface JsonObj).

Variable jwt_verify : string → string → option Token.
Variable env : ProcessEnv.

Local Abbreviation dispatch := (handleMessage jwt_verify env).
Local Abbreviation validate := (validateToken (WebSocketInterface:=WebSocketInterface) jwt_verify env).

Implicit Types (config : gmap string Entry) (ws : WebSocketInterface)
  (msg : Envelope) (key : string) (entry : Entry).

Local Open Scope js_scope.

(** The three ways through [handleMessage] once the key is computed. *)
Lemma handleMessage_absent config ws msg key :
  createMethodName (action msg) (subAction msg) = Some key →
  config !! key = None →
  dispatch config ws msg = throw (Error ("Invalid Action " +:+ key)).
Proof.
  intros Hkey Hnone. unfold handleMessage, methodNameOf.
  rewrite Hkey, bind_ret_l, Hnone. reflexivity.
Qed.

Lemma handleMessage_ungated config ws msg key entry :
  createMethodName (action msg) (subAction msg) = Some key →
  config !! key = Some entry →
  action msg = AUTH ∨ is_false (noAuth entry) = false →
  dispatch config ws msg
  = ([CallActionMethod key ws (payload msg) None],
     actionMethod entry ws (payload msg) None).
Proof.
  intros Hkey Hentry Hskip. unfold handleMessage, methodNameOf.
  rewrite Hkey, bind_ret_l, Hentry.
  assert (bool_decide (action msg ≠ AUTH) && is_false (noAuth entry) = false)
    as ->.
  { destruct Hskip as [-> | ->]; [done|]. apply andb_false_r. }
  rewrite bind_ret_l. reflexivity.
Qed.

Lemma handleMessage_gated config ws msg key entry :
  createMethodName (action msg) (subAction msg) = Some key →
  config !! key = Some entry →
  action msg ≠ AUTH →
  noAuth entry = JsBoolean false →
  dispatch config ws msg
  = if truthy (auth msg)
    then let* res := validate (auth msg) in
         call key (actionMethod entry) ws (payload msg) (user res)
    else throw (Error "Not Logged in").
Proof.
  intros Hkey Hentry Hact Hflag. unfold handleMessage, methodNameOf.
  rewrite Hkey, bind_ret_l, Hentry, Hflag.
  rewrite bool_decide_true by done. simpl andb. cbv iota.
  destruct (truthy (auth msg)); simpl negb; cbv iota.
  - rewrite bind_assoc. f_equal.
  - reflexivity.
Qed.

(** *** The token validator *)
Import Segments SegmentsFacts.

Lemma bearer_token_second a b more :
  Forall spaceless (a :: b :: more) → b ≠ "" →
  bearer_token (joinWith " " (a :: b :: more)) = b.
Proof.
  intros Hfree Hb. unfold bearer_token.
  rewrite split_joinWith by done. simpl. by destruct b.
Qed.

Lemma bearer_token_single s : spaceless s → bearer_token s = s.
Proof. intros Hfree. unfold bearer_token. by rewrite split_free. Qed.

Lemma bearer_token_empty_second a more :
  Forall spaceless (a :: more) →
  bearer_token (joinWith " " (a :: "" :: more)) = joinWith " " (a :: "" :: more).
Proof.
  intros Hfree. unfold bearer_token.
  rewrite split_joinWith; [done| |done].
  inversion Hfree; subst. by repeat constructor.
Qed.

Lemma validateToken_string bearer secret :
  JWT_SECRET env = Some secret → secret ≠ "" →
  validate (JsString bearer)
  = verified_as jwt_verify bearer (bearer_token bearer) secret.
Proof.
  intros Henv Hsecret. unfold validateToken, verified_as. rewrite Henv.
  destruct secret as [|c secret]; [done|]. simpl.
  by destruct (jwt_verify _ _).
Qed.

Lemma validateToken_unconfigured bearer :
  no_secret env = true →
  validate (JsString bearer)
  = ([CallValidateToken (JsString bearer)],
     Throw (Error "No JWT secret found. Please set JWT_SECRET in .env file.")).
Proof.
  unfold no_secret, validateToken.
  destruct (JWT_SECRET env) as [[|c secret]|]; simpl; done.
Qed.

Lemma validateToken_returns (v : Value) t res :
  validate v = (t, Return res) →
  ∃ bearer secret,
    v = JsString bearer ∧ JWT_SECRET env = Some secret
    ∧ jwt_verify (bearer_token bearer) secret = Some res
    ∧ t = [CallValidateToken v; CallJwtVerify (bearer_token bearer) secret].
Proof.
  unfold validateToken.
  destruct v as [| | | |bearer|]; simpl; try discriminate.
  destruct (JWT_SECRET env) as [[|c secret]|]; simpl; try discriminate.
  destruct (jwt_verify _ _) as [res'|] eqn:E; simpl; [|discriminate].
  intros [= <- <-]. by exists bearer, (String c secret).
Qed.

(** *** The claims about dispatch *)

(** C1 (amended). For every dispatched envelope whose action is not AUTH and
    whose matched registry entry has its [noAuth] flag equal to the literal
    [false], dispatch with a missing, empty or otherwise falsy [auth] rejects
    with ['Not Logged in'] and makes no call at all: neither the token
    validator nor the entry's handler runs. *)
Theorem handleMessage_not_logged_in config ws msg key entry :
  createMethodName (action msg) (subAction msg) = Some key →
  config !! key = Some entry →
  action msg ≠ AUTH →
  noAuth entry = JsBoolean false →
  truthy (auth msg) = false →
  dispatch config ws msg = ([], Throw (Error "Not Logged in")).
Proof.
  intros Hkey Hentry Hact Hflag Hauth.
  rewrite (handleMessage_gated _ _ _ _ _ Hkey Hentry Hact Hflag), Hauth.
  reflexivity.
Qed.

(** C2 (amended). For a matched registry entry whose [noAuth] flag is
    exactly the literal [false], dispatch skips token validation and invokes
    the handler with an undefined user only when the action is AUTH; for
    every other action it rejects a falsy [auth] with ['Not Logged in'], and
    on a truthy [auth] it first calls [validateToken] on it and hands the
    handler the [user] of the result. *)
Theorem handleMessage_flag_false config ws msg key entry :
  createMethodName (action msg) (subAction msg) = Some key →
  config !! key = Some entry →
  noAuth entry = JsBoolean false →
  (action msg = AUTH →
     dispatch config ws msg
     = ([CallActionMethod key ws (payload msg) None],
        actionMethod entry ws (payload msg) None))
  ∧ (action msg ≠ AUTH → truthy (auth msg) = false →
     dispatch config ws msg = ([], Throw (Error "Not Logged in")))
  ∧ (action msg ≠ AUTH → truthy (auth msg) = true →
     dispatch config ws msg
     = let* res := validate (auth msg) in
       let* _ := log (CallActionMethod key ws (payload msg) (user res)) in
       lift (actionMethod entry ws (payload msg) (user res))).
Proof.
  intros Hkey Hentry Hflag. split; [|split].
  - intros Hact. apply handleMessage_ungated; auto.
  - intros Hact Hauth.
    by rewrite (handleMessage_gated _ _ _ _ _ Hkey Hentry Hact Hflag), Hauth.
  - intros Hact Hauth.
    by rewrite (handleMessage_gated _ _ _ _ _ Hkey Hentry Hact Hflag), Hauth.
Qed.

(** C5. For every envelope whose computed key has no entry in the supplied
    config, dispatch rejects with ['Invalid Action <key>'] naming that key,
    whatever the [auth] field, the environment and the verifier are, and it
    makes no call: no authentication check, no token validation and no
    handler run before the rejection. *)
Theorem handleMessage_invalid_action config ws msg key :
  createMethodName (action msg) (subAction msg) = Some key →
  config !! key = None →
  dispatch config ws msg = ([], Throw (Error ("Invalid Action " +:+ key))).
Proof. apply handleMessage_absent. Qed.

(** C6. For every envelope with action AUTH that matches a registry entry,
    whatever the entry's flag and the envelope's [auth] are, dispatch makes
    exactly one call, the entry's handler with an undefined user: it does
    not require [auth] and does not call [validateToken]. *)
Theorem handleMessage_auth_action config ws msg key entry :
  createMethodName (action msg) (subAction msg) = Some key →
  config !! key = Some entry →
  action msg = AUTH →
  dispatch config ws msg
  = ([CallActionMethod key ws (payload msg) None],
     actionMethod entry ws (payload msg) None).
Proof. intros Hkey Hentry Hact. apply handleMessage_ungated; auto. Qed.

(** C7. Whenever dispatch takes the authentication branch (action not AUTH,
    flag [false], truthy [auth]) and [validateToken] succeeds on the
    envelope's [auth] with the decoded claims [res], the handler is invoked,
    after the validator's calls, with third argument [user res]; and [res] is
    what [jwt.verify] returned for the token taken from the [auth] string. *)
Theorem handleMessage_token_user config ws msg key entry t res :
  createMethodName (action msg) (subAction msg) = Some key →
  config !! key = Some entry →
  action msg ≠ AUTH →
  noAuth entry = JsBoolean false →
  truthy (auth msg) = true →
  validate (auth msg) = (t, Return res) →
  dispatch config ws msg
  = ((t ++ [CallActionMethod key ws (payload msg) (user res)])%list,
     actionMethod entry ws (payload msg) (user res))
  ∧ ∃ bearer secret,
      auth msg = JsString bearer ∧ JWT_SECRET env = Some secret
      ∧ jwt_verify (bearer_token bearer) secret = Some res.
Proof.
  intros Hkey Hentry Hact Hflag Hauth Hvalid. split.
  - rewrite (handleMessage_gated _ _ _ _ _ Hkey Hentry Hact Hflag), Hauth.
    rewrite Hvalid. reflexivity.
  - destruct (validateToken_returns _ _ _ Hvalid)
      as (bearer & secret & ? & ? & ? & _).
    by exists bearer, secret.
Qed.

(** C8. If no JWT secret is configured in the environment (the variable is
    unset or empty), every call of [validateToken] on a string rejects with
    ['No JWT secret found. Please set JWT_SECRET in .env file.'] without
    calling [jwt.verify], whatever the string and the verifier are; so every
    dispatch that reaches token validation with a string fails the same
    way, and the handler does not run. *)
Theorem validateToken_no_secret :
  no_secret env = true →
  (∀ bearer : string,
      validate (JsString bearer)
      = ([CallValidateToken (JsString bearer)],
         Throw (Error "No JWT secret found. Please set JWT_SECRET in .env file.")))
  ∧ (∀ config ws msg key entry (bearer : string),
      createMethodName (action msg) (subAction msg) = Some key →
      config !! key = Some entry →
      action msg ≠ AUTH →
      noAuth entry = JsBoolean false →
      auth msg = JsString bearer → bearer ≠ "" →
      dispatch config ws msg
      = ([CallValidateToken (JsString bearer)],
         Throw (Error "No JWT secret found. Please set JWT_SECRET in .env file."))).
Proof.
  intros Hno. split.
  - intros bearer. by apply validateToken_unconfigured.
  - intros config ws msg key entry bearer Hkey Hentry Hact Hflag Hauth Hne.
    rewrite (handleMessage_gated _ _ _ _ _ Hkey Hentry Hact Hflag), Hauth.
    assert (truthy (JsString (JsonObj:=JsonObj) bearer) = true) as ->
      by by destruct bearer.
    by rewrite validateToken_unconfigured.
Qed.

(** C9. For every envelope whose action is not AUTH and whose matched
    registry entry's [noAuth] flag is anything but the literal [false]
    (unset, [true], any other value), dispatch makes exactly one call, the
    entry's handler with an undefined user, whatever the [auth] field
    carries: [validateToken] is not called even for a valid token. *)
Theorem handleMessage_flag_not_false config ws msg key entry :
  createMethodName (action msg) (subAction msg) = Some key →
  config !! key = Some entry →
  action msg ≠ AUTH →
  noAuth entry ≠ JsBoolean false →
  dispatch config ws msg
  = ([CallActionMethod key ws (payload msg) None],
     actionMethod entry ws (payload msg) None).
Proof.
  intros Hkey Hentry _ Hflag. apply handleMessage_ungated; auto.
  right. by apply is_false_other.
Qed.

(** C10. With a secret configured, [validateToken] on a string made of
    space-free segments joined by single spaces hands [jwt.verify] the
    second segment alone when there is one and it is not empty, whatever
    the first segment is and whatever follows the second; on a string
    without a space, and on one whose second segment is empty, it hands
    over the entire string. *)
Theorem validateToken_second_segment secret :
  JWT_SECRET env = Some secret → secret ≠ "" →
  (∀ a b more,
      Forall spaceless (a :: b :: more) → b ≠ "" →
      validate (JsString (joinWith " " (a :: b :: more)))
      = verified_as jwt_verify (joinWith " " (a :: b :: more)) b secret)
  ∧ (∀ s,
      spaceless s →
      validate (JsString s) = verified_as jwt_verify s s secret)
  ∧ (∀ a more,
      Forall spaceless (a :: more) →
      validate (JsString (joinWith " " (a :: "" :: more)))
      = verified_as jwt_verify (joinWith " " (a :: "" :: more))
                    (joinWith " " (a :: "" :: more)) secret).
Proof.
  intros Henv Hsecret. split; [|split].
  - intros a b more Hfree Hb.
    by rewrite (validateToken_string _ _ Henv Hsecret), bearer_token_second.
  - intros s Hfree.
    by rewrite (validateToken_string _ _ Henv Hsecret), bearer_token_single.
  - intros a more Hfree.
    by rewrite (validateToken_string _ _ Henv Hsecret),
      bearer_token_empty_second.
Qed.

End DispatcherFacts.

(** ** The dispatcher on the concrete registry *)
Section Runs.
Import Scenario Segments SegmentsFacts.

Local Abbreviation tokenT := (ValidTokenInterface Json Claims).
Local Abbreviation validate_in e :=
  (validateToken (WebSocketInterface:=Conn) verify e).

(** Closes a side condition on concrete data by evaluation. *)
Local Ltac run :=
  first [ reflexivity | discriminate | vm_compute; reflexivity
        | repeat constructor ].

(** C1 as the specification words it does not hold. The entry of
    [handleMessage] leaves its flag unset, the action MESSAGE is not AUTH
    and the envelope has no [auth]: the sentence asks for the rejection
    ['Not Logged in'] with the handler not run, but dispatch invokes the
    handler, with an undefined user. *)
Lemma handleMessage_unset_flag_counterexample :
  let cfg := config JsUndefined in
  let msg := envelope MESSAGE None JsUndefined in
  createMethodName (action msg) (subAction msg) = Some "handleMessage"
  ∧ cfg !! "handleMessage" = Some (mkEntry JsUndefined whoami)
  ∧ action msg ≠ AUTH
  ∧ JsUndefined ≠ JsBoolean (JsonObj:=Json) false
  ∧ truthy (auth msg) = false
  ∧ handleMessage verify env_secret cfg 7 msg
    = ([CallActionMethod "handleMessage" 7 None None], whoami 7 None None)
  ∧ handleMessage verify env_secret cfg 7 msg
    ≠ ([], Throw (Error "Not Logged in")).
Proof. repeat split; run. Qed.

Lemma handleMessage_not_logged_in_witness :
  let cfg := config (JsBoolean false) in
  let msg := envelope MESSAGE None (JsString "") in
  handleMessage verify env_secret cfg 7 msg = ([], Throw (Error "Not Logged in")).
Proof.
  apply (handleMessage_not_logged_in verify env_secret
           (config (JsBoolean false)) 7 (envelope MESSAGE None (JsString ""))
           "handleMessage" (mkEntry (JsBoolean false) whoami)); run.
Defined.

(** C2 as the specification words it does not hold. The entry of
    [handleMessage] has its flag set to the literal [false] and the envelope
    carries a valid bearer token: the sentence asks for no call of
    [validateToken] and an undefined user, but dispatch validates the token
    and hands the handler the token's user. *)
Lemma handleMessage_flag_false_counterexample :
  let cfg := config (JsBoolean false) in
  let msg := envelope MESSAGE None (JsString "Bearer tok") in
  createMethodName (action msg) (subAction msg) = Some "handleMessage"
  ∧ cfg !! "handleMessage" = Some (mkEntry (JsBoolean false) whoami)
  ∧ handleMessage verify env_secret cfg 7 msg
    = ([CallValidateToken (JsString "Bearer tok");
        CallJwtVerify "tok" "s3cret";
        CallActionMethod "handleMessage" 7 None (Some alice)],
       whoami 7 None (Some alice))
  ∧ handleMessage verify env_secret cfg 7 msg
    ≠ ([CallActionMethod "handleMessage" 7 None None], whoami 7 None None).
Proof. repeat split; run. Qed.

Lemma handleMessage_flag_false_witness :
  let cfg := config (JsBoolean false) in
  let msg := envelope MESSAGE None (JsString "Bearer tok") in
  (action msg = AUTH →
     handleMessage verify env_secret cfg 7 msg
     = ([CallActionMethod "handleMessage" 7 None None], whoami 7 None None))
  ∧ (action msg ≠ AUTH → truthy (auth msg) = false →
     handleMessage verify env_secret cfg 7 msg
     = ([], Throw (Error "Not Logged in")))
  ∧ (action msg ≠ AUTH → truthy (auth msg) = true →
     handleMessage verify env_secret cfg 7 msg
     = bind (validate_in env_secret (auth msg)) (λ res,
         bind (log (CallActionMethod "handleMessage" 7 None (user res)))
              (λ _, lift (whoami 7 None (user res))))).
Proof.
  apply (handleMessage_flag_false verify env_secret
           (config (JsBoolean false)) 7
           (envelope MESSAGE None (JsString "Bearer tok"))
           "handleMessage" (mkEntry (JsBoolean false) whoami)); run.
Defined.

Lemma handleMessage_invalid_action_witness :
  handleMessage verify env_secret (config (JsBoolean true)) 7
    (envelope ZONE (Some SUB_JOIN) (JsString "Bearer tok"))
  = ([], Throw (Error "Invalid Action handleZoneJoin")).
Proof.
  apply (handleMessage_invalid_action verify env_secret
           (config (JsBoolean true)) 7
           (envelope ZONE (Some SUB_JOIN) (JsString "Bearer tok"))
           "handleZoneJoin"); run.
Defined.

Lemma handleMessage_auth_action_witness :
  handleMessage verify env_empty (config (JsBoolean false)) 7
    (envelope AUTH (Some SUB_LOGIN) JsUndefined)
  = ([CallActionMethod "handleAuthLogin" 7 None None], whoami 7 None None).
Proof.
  apply (handleMessage_auth_action verify env_empty
           (config (JsBoolean false)) 7
           (envelope AUTH (Some SUB_LOGIN) JsUndefined)
           "handleAuthLogin" (mkEntry (JsBoolean false) whoami)); run.
Defined.

Lemma handleMessage_token_user_witness :
  let cfg := config (JsBoolean false) in
  let msg := envelope MESSAGE None (JsString "Bearer tok") in
  handleMessage verify env_secret cfg 7 msg
  = ([CallValidateToken (JsString "Bearer tok"); CallJwtVerify "tok" "s3cret";
      CallActionMethod "handleMessage" 7 None (Some alice)],
     whoami 7 None (Some alice))
  ∧ ∃ bearer secret,
      auth msg = JsString bearer ∧ JWT_SECRET env_secret = Some secret
      ∧ verify (bearer_token bearer) secret
        = Some (mkValidToken (Some alice) [("exp", 1798761600%Z)]).
Proof.
  apply (handleMessage_token_user verify env_secret
           (config (JsBoolean false)) 7
           (envelope MESSAGE None (JsString "Bearer tok"))
           "handleMessage" (mkEntry (JsBoolean false) whoami)
           [CallValidateToken (JsString "Bearer tok");
            CallJwtVerify "tok" "s3cret"]
           (mkValidToken (Some alice) [("exp", 1798761600%Z)])); run.
Defined.

Lemma validateToken_no_secret_witness :
  validate_in env_empty (JsString "Bearer tok")
  = ([CallValidateToken (JsString "Bearer tok")],
     Throw (Error "No JWT secret found. Please set JWT_SECRET in .env file.")).
Proof.
  apply (proj1 (validateToken_no_secret (WebSocketInterface:=Conn)
                  verify env_empty eq_refl)).
Defined.

Lemma handleMessage_flag_not_false_witness :
  handleMessage verify env_secret (config (JsBoolean true)) 7
    (envelope MESSAGE None (JsString "Bearer tok"))
  = ([CallActionMethod "handleMessage" 7 None None], whoami 7 None None).
Proof.
  apply (handleMessage_flag_not_false verify env_secret
           (config (JsBoolean true)) 7
           (envelope MESSAGE None (JsString "Bearer tok"))
           "handleMessage" (mkEntry (JsBoolean true) whoami)); run.
Defined.

Lemma validateToken_second_segment_witness :
  validate_in env_secret (JsString "Basic tok and more")
  = verified_as verify "Basic tok and more" "tok" "s3cret".
Proof.
  apply (proj1 (validateToken_second_segment (WebSocketInterface:=Conn)
                  verify env_secret "s3cret" eq_refl ltac:(discriminate))
           "Basic" "tok" ["and"; "more"]); run.
Defined.

(** Every string is the join of its space-free segments, so the three cases
    of [validateToken_second_segment] cover every input string. *)
Lemma segments_cover (bearer : string) :
  joinWith " " (JsString.split " " bearer) = bearer
  ∧ Forall spaceless (JsString.split " " bearer)
  ∧ JsString.split " " bearer ≠ [].
Proof.
  split; [apply joinWith_split|].
  split; [apply split_segments_free | apply split_nonempty].
Qed.

End Runs.

(** * Further properties of the code *)

(** ** [camelCase] and [createMethodName] on arbitrary strings *)
Section CamelCaseFacts.
Import JsString JsStringFacts KeyPattern Observations.

Lemma camelWord_None idx w : camelWord idx w = None ↔ w = "".
Proof. destruct w; unfold camelWord; simpl; split; done. Qed.



Lemma mapWords_cons idx w ws :
  mapWords idx (w :: ws)
  = (w0 ← camelWord idx w; ws0 ← mapWords (S idx) ws; Some (w0 :: ws0)).
Proof. reflexivity. Qed.

Lemma mapWords_None idx input : mapWords idx input = None ↔ "" ∈ input.
Proof.
  revert idx. induction input as [|w ws IH]; intros idx; simpl.
  - rewrite elem_of_nil. split; [discriminate | tauto].
  - rewrite elem_of_cons. destruct w as [|c rest].
    + simpl. tauto.
    + change (camelWord idx (String c rest))
        with (Some ((if (idx =? 0)%nat then toLowerCase (String c "")
                     else toUpperCase (String c ""))
                    +:+ slice1 (toLowerCase (String c rest)))).
      simpl. destruct (mapWords (S idx) ws) eqn:E; simpl.
      * split; [discriminate|]. intros [?|Hin]; [discriminate|].
        apply (IH (S idx)) in Hin. congruence.
      * split; [|done]. intros _. right. by apply (IH (S idx)).
  Qed.


Lemma upper_lower_char c : upper_char (lower_char c) = upper_char c.
Proof. by destruct c as [[] [] [] [] [] [] [] []]. Qed.

Lemma camelWord_same_letters idx w w' :
  same_letters w w' → camelWord idx w = camelWord idx w'.
Proof.
  unfold same_letters. destruct w as [|c r], w' as [|c' r']; simpl; try done.
  intros [= Hc Hr]. unfold camelWord. simpl. rewrite Hr.
  destruct idx; simpl; [by rewrite Hc|].
  by rewrite <- (upper_lower_char c), Hc, upper_lower_char.
Qed.

Lemma mapWords_same_letters idx ws ws' :
  Forall2 same_letters ws ws' → mapWords idx ws = mapWords idx ws'.
Proof.
  intros H. revert idx. induction H as [|w w' ws ws' Hw _ IH]; intros idx;
    [done|].
  by rewrite !mapWords_cons, (camelWord_same_letters idx w w' Hw), IH.
Qed.

(** X1. [camelCase] throws (the [TypeError] of [word[0].toLowerCase()] on
    [undefined]) exactly when one of the words is the empty string. *)
Theorem camelCase_throws_iff (input : list string) :
  camelCase input = None ↔ "" ∈ input.
Proof.
  unfold camelCase. rewrite <- (mapWords_None 0).
  destruct (mapWords 0 input); simpl; split; congruence.
Qed.


(** X3. [camelCase] does not see the letter case of its input: two word
    lists that agree word by word up to letter case have the same result
    (the same string, or both throw). *)
Theorem camelCase_case_insensitive (ws ws' : list string) :
  Forall2 same_letters ws ws' → camelCase ws = camelCase ws'.
Proof.
  intros H. unfold camelCase. by rewrite (mapWords_same_letters 0 ws ws' H).
Qed.


(** X5. The key does not depend on the letter case of the action and
    sub-action strings: [createMethodName] maps actions, and sub-actions,
    that differ in case only to the same key. *)
Theorem createMethodName_str_case_insensitive
    (action action' : string) (subAction subAction' : option string) :
  same_letters action action' →
  toLowerCase <$> subAction = toLowerCase <$> subAction' →
  createMethodName_str action subAction = createMethodName_str action' subAction'.
Proof.
  intros Ha Hs. unfold createMethodName_str, camelCase. f_equal.
  assert (∀ s s', same_letters s s' → truthy s = truthy s') as Htruthy.
  { intros [|] [|]; unfold same_letters; simpl; congruence. }
  destruct subAction as [s|], subAction' as [s'|]; simpl in Hs; try done.
  - injection Hs as Hs. rewrite (Htruthy s s' Hs).
    destruct (truthy s'); apply mapWords_same_letters;
      repeat constructor; done.
  - apply mapWords_same_letters; repeat constructor; done.
Qed.

End CamelCaseFacts.

Lemma camelCase_throws_iff_witness :
  camelCase ["handle"; ""; "SEND"] = None ∧ "" ∈ ["handle"; ""; "SEND"].
Proof.
  split; [reflexivity|].
  apply (proj1 (camelCase_throws_iff ["handle"; ""; "SEND"])). reflexivity.
Defined.


Lemma camelCase_case_insensitive_witness :
  camelCase ["handle"; "MESSAGE"; "Send"] = camelCase ["HANDLE"; "message"; "sEND"].
Proof.
  apply (camelCase_case_insensitive ["handle"; "MESSAGE"; "Send"]
           ["HANDLE"; "message"; "sEND"]).
  repeat constructor.
Defined.


Lemma createMethodName_str_case_insensitive_witness :
  createMethodName_str "message" (Some "Send")
  = createMethodName_str "MESSAGE" (Some "SEND").
Proof.
  apply (createMethodName_str_case_insensitive "message" "MESSAGE"
           (Some "Send") (Some "SEND")); reflexivity.
Defined.

(** ** The token validator and the dispatcher, beyond the claims *)
Section DispatcherMore.
Context {WebSocketInterface JsonObj JwtPayload : Type}.
Import KeyPattern Segments SegmentsFacts Observations.

Local Abbreviation Value := (JsValue JsonObj).
Local Abbreviation Token := (ValidTokenInterface JsonObj JwtPayload).
Local Abbreviation Envelope := (Transport JsonObj).
Local Abbreviation Entry := (ConfigEntry WebSocketInterface JsonObj).
Local Abbreviation Ev := (Event WebSocketInterface JsonObj).

Variable jwt_verify : string → string → option Token.
Variable env : ProcessEnv.

Local Abbreviation dispatch := (handleMessage jwt_verify env).
Local Abbreviation validate :=
  (validateToken (WebSocketInterface:=WebSocketInterface) jwt_verify env).

Implicit Types (config : gmap string Entry) (ws : WebSocketInterface)
  (msg : Envelope) (key : string) (entry : Entry) (v : Value).

Local Open Scope js_scope.

Lemma validateToken_not_string v :
  (∀ s, v ≠ JsString s) →
  validate v = ([CallValidateToken v], Throw (Error "Invalid auth token")).
Proof. intros Hv. destruct v; try done. by destruct (Hv s). Qed.

Lemma validateToken_calls v :
  calls (validate v) = [CallValidateToken v]
  ∨ ∃ bearer secret,
      v = JsString bearer ∧ JWT_SECRET env = Some secret ∧ secret ≠ ""
      ∧ calls (validate v)
        = [CallValidateToken v; CallJwtVerify (bearer_token bearer) secret].
Proof.
  destruct v as [| | | |bearer|]; try (by left).
  unfold validateToken.
  destruct (JWT_SECRET env) as [[|c secret]|] eqn:E; try (by left).
  right. exists bearer, (String c secret). simpl.
  by destruct (jwt_verify _ _).
Qed.

Lemma validateToken_throws v e :
  outcome (validate v) = Throw e → e ∈ validateToken_errors.
Proof.
  unfold validateToken_errors. rewrite !elem_of_cons.
  destruct v as [| | | |bearer|]; simpl; try (intros [= <-]; tauto).
  unfold validateToken.
  destruct (JWT_SECRET env) as [[|c secret]|]; simpl;
    try (intros [= <-]; tauto).
  destruct (jwt_verify _ _); simpl; [discriminate|]. intros [= <-]. tauto.
Qed.

Lemma bearer_token_nonempty bearer : bearer ≠ "" → bearer_token bearer ≠ "".
Proof.
  intros Hne. unfold bearer_token.
  destruct (JsString.split " " bearer !! 1%nat) as [[|c t]|]; simpl; done.
Qed.

Lemma truthy_string (s : string) :
  truthy (JsString (JsonObj:=JsonObj) s) = true ↔ s ≠ "".
Proof. destruct s; simpl; split; done. Qed.

(** X6. Every error [validateToken] throws is one of its three: the
    not-a-string error, the missing-secret error, or the single invalid-token
    error that replaces whatever [jwt.verify] threw; and when it returns, the
    value is what [jwt.verify] returned for the token under the configured,
    non-empty secret, after exactly one call of [jwt.verify]. *)
Theorem validateToken_outcomes v :
  (∃ e, e ∈ validateToken_errors ∧ outcome (validate v) = Throw e)
  ∨ (∃ bearer secret res,
       v = JsString bearer ∧ JWT_SECRET env = Some secret ∧ secret ≠ ""
       ∧ jwt_verify (bearer_token bearer) secret = Some res
       ∧ validate v
         = ([CallValidateToken v; CallJwtVerify (bearer_token bearer) secret],
            Return res)).
Proof.
  destruct (validate v) as [t [res|e]] eqn:E.
  - right. destruct (validateToken_returns _ _ _ _ _ E)
      as (bearer & secret & -> & Henv & Hres & ->).
    exists bearer, secret, res. repeat split; try done.
    intros ->. unfold validateToken in E. rewrite Henv in E. discriminate.
  - left. exists e. split; [|done].
    apply (validateToken_throws v). by rewrite E.
Qed.

(** X7. An argument that is not a string makes [validateToken] throw
    ['Invalid auth token'] at once, whether or not a secret is configured:
    the environment is not consulted and [jwt.verify] is not called. *)
Theorem validateToken_invalid_auth v :
  (∀ s, v ≠ JsString s) →
  validateToken (WebSocketInterface:=WebSocketInterface) jwt_verify env v
  = ([CallValidateToken v], Throw (Error "Invalid auth token")).
Proof. apply validateToken_not_string. Qed.

(** X8. In the authentication branch an error thrown by [validateToken] is
    the result of dispatch, unchanged, and the calls made are the validator's
    alone: the handler does not run. *)
Theorem handleMessage_validation_failure config ws msg key entry t e :
  createMethodName (action msg) (subAction msg) = Some key →
  config !! key = Some entry →
  action msg ≠ AUTH →
  noAuth entry = JsBoolean false →
  truthy (auth msg) = true →
  validate (auth msg) = (t, Throw e) →
  dispatch config ws msg = (t, Throw e).
Proof.
  intros Hkey Hentry Hact Hflag Hauth Hvalid.
  rewrite (handleMessage_gated _ _ _ _ _ _ _ Hkey Hentry Hact Hflag), Hauth.
  by rewrite Hvalid.
Qed.

(** X9. A truthy [auth] that is not a string (a number, [true], an object)
    on a gated action is rejected with ['Invalid auth token'], with or
    without a configured secret, and the handler does not run. *)
Theorem handleMessage_auth_not_string config ws msg key entry :
  createMethodName (action msg) (subAction msg) = Some key →
  config !! key = Some entry →
  action msg ≠ AUTH →
  noAuth entry = JsBoolean false →
  truthy (auth msg) = true →
  (∀ s, auth msg ≠ JsString s) →
  dispatch config ws msg
  = ([CallValidateToken (auth msg)], Throw (Error "Invalid auth token")).
Proof.
  intros Hkey Hentry Hact Hflag Hauth Hstr.
  rewrite (handleMessage_gated _ _ _ _ _ _ _ Hkey Hentry Hact Hflag), Hauth.
  by rewrite validateToken_not_string.
Qed.

(** X10. On a gated action with a non-empty [auth] string and a configured
    secret, a token that [jwt.verify] rejects (expired, tampered, malformed)
    makes dispatch fail with ['Invalid Token. Please log in again.'] after
    the one call of [jwt.verify]; the handler does not run. *)
Theorem handleMessage_token_rejected config ws msg key entry bearer secret :
  createMethodName (action msg) (subAction msg) = Some key →
  config !! key = Some entry →
  action msg ≠ AUTH →
  noAuth entry = JsBoolean false →
  auth msg = JsString bearer → bearer ≠ "" →
  JWT_SECRET env = Some secret → secret ≠ "" →
  jwt_verify (bearer_token bearer) secret = None →
  dispatch config ws msg
  = ([CallValidateToken (JsString bearer);
      CallJwtVerify (bearer_token bearer) secret],
     Throw (Error "Invalid Token. Please log in again.")).
Proof.
  intros Hkey Hentry Hact Hflag Hauth Hne Henv Hsecret Hrej.
  rewrite (handleMessage_gated _ _ _ _ _ _ _ Hkey Hentry Hact Hflag), Hauth.
  rewrite (proj2 (truthy_string bearer) Hne).
  rewrite (validateToken_string _ _ _ _ Henv Hsecret).
  unfold verified_as. by rewrite Hrej.
Qed.

(** X11. On a gated action with a non-empty [auth] string and a configured
    secret, a token that [jwt.verify] accepts leads to exactly three calls, in
    this order: [validateToken], [jwt.verify] on the token taken from [auth],
    and the handler with the connection, the envelope's payload and the
    [user] of the decoded claims (undefined when the claims have none); the
    handler's outcome is the outcome of dispatch. *)
Theorem handleMessage_authenticated config ws msg key entry bearer secret res :
  createMethodName (action msg) (subAction msg) = Some key →
  config !! key = Some entry →
  action msg ≠ AUTH →
  noAuth entry = JsBoolean false →
  auth msg = JsString bearer → bearer ≠ "" →
  JWT_SECRET env = Some secret → secret ≠ "" →
  jwt_verify (bearer_token bearer) secret = Some res →
  dispatch config ws msg
  = ([CallValidateToken (JsString bearer);
      CallJwtVerify (bearer_token bearer) secret;
      CallActionMethod key ws (payload msg) (user res)],
     actionMethod entry ws (payload msg) (user res)).
Proof.
  intros Hkey Hentry Hact Hflag Hauth Hne Henv Hsecret Hok.
  rewrite (handleMessage_gated _ _ _ _ _ _ _ Hkey Hentry Hact Hflag), Hauth.
  rewrite (proj2 (truthy_string bearer) Hne).
  rewrite (validateToken_string _ _ _ _ Henv Hsecret).
  unfold verified_as. by rewrite Hok.
Qed.




(** X13. Whenever dispatch reaches [jwt.verify], the token it passes is not
    empty and is the token taken from the envelope's [auth] string, and the
    secret it passes is the configured, non-empty [JWT_SECRET]. *)
Theorem handleMessage_verify_arguments config ws msg token secret :
  CallJwtVerify token secret ∈ calls (dispatch config ws msg) →
  token ≠ "" ∧ secret ≠ "" ∧ JWT_SECRET env = Some secret
  ∧ ∃ bearer, auth msg = JsString bearer ∧ token = bearer_token bearer.
Proof.
  pose proof (createMethodName_defined (action msg) (subAction msg)) as Hkey.
  set (key := pattern (action msg) (subAction msg)) in Hkey.
  destruct (config !! key) as [entry|] eqn:Hentry.
  2:{ rewrite (handleMessage_absent _ _ _ _ _ _ Hkey Hentry). simpl.
      by rewrite elem_of_nil. }
  assert (CallJwtVerify token secret
            ∈ ([CallActionMethod key ws (payload msg) None] : list Ev) → False)
    as Hnone.
  { rewrite list_elem_of_singleton. discriminate. }
  destruct (decide (action msg = AUTH)) as [Hact|Hact].
  { rewrite (handleMessage_ungated _ _ config ws msg key entry) by auto.
    intros Hin. destruct (Hnone Hin). }
  destruct (is_false (noAuth entry)) eqn:Hflag.
  2:{ rewrite (handleMessage_ungated _ _ config ws msg key entry) by auto.
      intros Hin. destruct (Hnone Hin). }
  apply is_false_spec in Hflag.
  rewrite (handleMessage_gated _ _ _ _ _ _ _ Hkey Hentry Hact Hflag).
  destruct (truthy (auth msg)) eqn:Hauth.
  2:{ simpl. by rewrite elem_of_nil. }
  assert (CallJwtVerify token secret ∈ calls (validate (auth msg)) →
          token ≠ "" ∧ secret ≠ "" ∧ JWT_SECRET env = Some secret
          ∧ ∃ bearer, auth msg = JsString bearer ∧ token = bearer_token bearer)
    as Hvalid.
  { destruct (validateToken_calls (auth msg))
      as [->|(b & s & Hb & Henv & Hs & ->)].
    - rewrite list_elem_of_singleton. discriminate.
    - rewrite !elem_of_cons, elem_of_nil.
      intros [?|[[= -> ->]|[]]]; [discriminate|].
      repeat split; try done.
      + apply bearer_token_nonempty. apply truthy_string.
        by rewrite <- Hb.
      + by exists b. }
  destruct (validate (auth msg)) as [t [res|e]]; simpl in *; [|done].
  rewrite elem_of_app, list_elem_of_singleton.
  intros [Hin|?]; [by apply Hvalid | discriminate].
Qed.


(** X15. The scheme word in front of the token is optional and arbitrary:
    for a non-empty token without a space, an envelope whose [auth] is a
    space-free word, one space and the token is dispatched to the same
    outcome, with the same handler call, as the envelope whose [auth] is the
    token alone. *)
Theorem handleMessage_scheme_optional config ws scheme tok a s m p er :
  spaceless scheme → spaceless tok → tok ≠ "" →
  let prefixed := mkTransport (JsString (scheme +:+ " " +:+ tok)) a s m p er in
  let bare := mkTransport (JsString tok) a s m p er in
  outcome (dispatch config ws prefixed) = outcome (dispatch config ws bare)
  ∧ List.filter is_handler_call (calls (dispatch config ws prefixed))
    = List.filter is_handler_call (calls (dispatch config ws bare)).
Proof.
  intros Hscheme Htok Hne prefixed bare.
  assert (bearer_token (scheme +:+ " " +:+ tok) = tok) as Hpre.
  { change (scheme +:+ " " +:+ tok) with (joinWith " " [scheme; tok]).
    apply bearer_token_second; [by repeat constructor | done]. }
  assert (bearer_token tok = tok) as Hbare by by apply bearer_token_single.
  assert (truthy (JsString (JsonObj:=JsonObj) (scheme +:+ " " +:+ tok)) = true)
    as Htruthy.
  { apply truthy_string. intros Hempty. by destruct scheme. }
  pose proof (createMethodName_defined a s) as Hkey.
  set (key := pattern a s) in Hkey.
  destruct (config !! key) as [entry|] eqn:Hentry.
  2:{ by rewrite !(handleMessage_absent _ _ _ _ _ key). }
  destruct (decide (a = AUTH)) as [Hact|Hact].
  { by rewrite !(handleMessage_ungated _ _ config ws _ key entry) by auto. }
  destruct (is_false (noAuth entry)) eqn:Hflag.
  2:{ by rewrite !(handleMessage_ungated _ _ config ws _ key entry) by auto. }
  apply is_false_spec in Hflag.
  rewrite !(handleMessage_gated _ _ config ws _ key entry) by done.
  subst prefixed bare. cbn [auth payload].
  rewrite Htruthy, (proj2 (truthy_string tok) Hne).
  unfold validateToken. rewrite Hpre, Hbare.
  destruct (JWT_SECRET env) as [[|c secret]|]; simpl; try done.
  by destruct (jwt_verify tok _).
Qed.

End DispatcherMore.

(** ** Further runs on the concrete registry *)
Section MoreRuns.
Import Scenario Segments SegmentsFacts Observations.

Local Abbreviation validate_in e :=
  (validateToken (WebSocketInterface:=Conn) verify e).

Local Ltac run :=
  first [ reflexivity | discriminate | vm_compute; reflexivity
        | repeat constructor ].

Lemma validateToken_invalid_auth_witness :
  validate_in env_empty (JsNumber 42)
  = ([CallValidateToken (JsNumber 42)], Throw (Error "Invalid auth token")).
Proof.
  apply (validateToken_invalid_auth (WebSocketInterface:=Conn) verify env_empty
           (JsNumber 42)).
  discriminate.
Defined.

Lemma handleMessage_validation_failure_witness :
  handleMessage verify env_secret (config (JsBoolean false)) 7
    (envelope MESSAGE None (JsString "Bearer forged"))
  = ([CallValidateToken (JsString "Bearer forged");
      CallJwtVerify "forged" "s3cret"],
     Throw (Error "Invalid Token. Please log in again.")).
Proof.
  apply (handleMessage_validation_failure verify env_secret
           (config (JsBoolean false)) 7
           (envelope MESSAGE None (JsString "Bearer forged"))
           "handleMessage" (mkEntry (JsBoolean false) whoami)); run.
Defined.

Lemma handleMessage_auth_not_string_witness :
  handleMessage verify env_secret (config (JsBoolean false)) 7
    (envelope MESSAGE None (JsBoolean true))
  = ([CallValidateToken (JsBoolean true)], Throw (Error "Invalid auth token")).
Proof.
  apply (handleMessage_auth_not_string verify env_secret
           (config (JsBoolean false)) 7
           (envelope MESSAGE None (JsBoolean true))
           "handleMessage" (mkEntry (JsBoolean false) whoami)); run.
Defined.

Lemma handleMessage_token_rejected_witness :
  handleMessage verify env_secret (config (JsBoolean false)) 7
    (envelope MESSAGE None (JsString "Bearer forged"))
  = ([CallValidateToken (JsString "Bearer forged");
      CallJwtVerify (bearer_token "Bearer forged") "s3cret"],
     Throw (Error "Invalid Token. Please log in again.")).
Proof.
  apply (handleMessage_token_rejected verify env_secret
           (config (JsBoolean false)) 7
           (envelope MESSAGE None (JsString "Bearer forged"))
           "handleMessage" (mkEntry (JsBoolean false) whoami)
           "Bearer forged" "s3cret"); run.
Defined.

Lemma handleMessage_authenticated_witness :
  handleMessage verify env_secret (config (JsBoolean false)) 7
    (envelope MESSAGE None (JsString "tok"))
  = ([CallValidateToken (JsString "tok");
      CallJwtVerify (bearer_token "tok") "s3cret";
      CallActionMethod "handleMessage" 7 None (Some alice)],
     whoami 7 None (Some alice)).
Proof.
  apply (handleMessage_authenticated verify env_secret
           (config (JsBoolean false)) 7
           (envelope MESSAGE None (JsString "tok"))
           "handleMessage" (mkEntry (JsBoolean false) whoami)
           "tok" "s3cret"
           (mkValidToken (Some alice) [("exp", 1798761600%Z)])); run.
Defined.

Lemma handleMessage_verify_arguments_witness :
  "tok" ≠ "" ∧ "s3cret" ≠ "" ∧ JWT_SECRET env_secret = Some "s3cret"
  ∧ ∃ bearer,
      auth (envelope MESSAGE None (JsString "Bearer tok")) = JsString bearer
      ∧ "tok" = bearer_token bearer.
Proof.
  apply (handleMessage_verify_arguments verify env_secret
           (config (JsBoolean false)) 7
           (envelope MESSAGE None (JsString (JsonObj:=Json) "Bearer tok"))
           "tok" "s3cret").
  vm_compute. repeat constructor.
Defined.


Lemma handleMessage_scheme_optional_witness :
  let prefixed := envelope MESSAGE None (JsString "Bearer tok") in
  let bare := envelope MESSAGE None (JsString "tok") in
  outcome (handleMessage verify env_secret (config (JsBoolean false)) 7 prefixed)
  = outcome (handleMessage verify env_secret (config (JsBoolean false)) 7 bare)
  ∧ List.filter is_handler_call
      (calls (handleMessage verify env_secret (config (JsBoolean false)) 7 prefixed))
    = List.filter is_handler_call
        (calls (handleMessage verify env_secret (config (JsBoolean false)) 7 bare)).
Proof.
  apply (handleMessage_scheme_optional verify env_secret
           (config (JsBoolean false)) 7 "Bearer" "tok"
           MESSAGE None None None None); run.
Defined.

End MoreRuns.
